(** * serve.py: the FASM eBook development server

    A shallow embedding of [docs/fasm-ebook/serve.py] and of the parts of
    Python's [http.server] it inherits from, followed by the properties of
    the request handler and of the start-up script. *)

From Stdlib Require Import String Ascii List ZArith Bool Lia.
From Stdlib Require Import DecimalString.
Import ListNotations.

Open Scope string_scope.
Open Scope Z_scope.

(** ** Python strings *)

Module PyStr.

(** [str.endswith]: some tail of [s] is [suffix]. *)
Fixpoint endswith (s suffix : string) : bool :=
  if String.eqb s suffix then true
  else match s with
       | EmptyString => false
       | String _ s' => endswith s' suffix
       end.

Definition lower_ascii (c : ascii) : ascii :=
  let n := nat_of_ascii c in
  if ((65 <=? n) && (n <=? 90))%nat then ascii_of_nat (n + 32) else c.

(** [str.lower] on ASCII text. *)
Fixpoint lower (s : string) : string :=
  match s with
  | EmptyString => EmptyString
  | String c s' => String (lower_ascii c) (lower s')
  end.

Fixpoint last_char (s : string) : option ascii :=
  match s with
  | EmptyString => None
  | String c EmptyString => Some c
  | String _ s' => last_char s'
  end.

(** [str(n)] for an integer. *)
Definition str_of_Z (n : Z) : string := NilZero.string_of_int (Z.to_int n).

End PyStr.

Import PyStr.

(** ** The request handler

    [MyHTTPRequestHandler] overrides two methods of
    [http.server.SimpleHTTPRequestHandler]: [end_headers] and [guess_type].
    The handler object [self] is threaded through a state monad.  The methods
    it inherits are embedded from Python's [http/server.py]; what they in turn
    take from other modules ([urllib], [mimetypes], [email.utils], the file
    system) is a variable of the section. *)

Module Handler.

(** One entry of [self._headers_buffer]: the status line
    ["%s %d %s\r\n"], a header line ["%s: %s\r\n"], or the closing ["\r\n"]. *)
Inductive hline : Type :=
| StatusLine (version : string) (code : Z) (message : string)
| HeaderLine (keyword value : string)
| EndOfHeaders.

(** One [self.wfile.write]: the joined header buffer, or body bytes. *)
Inductive chunk : Type :=
| Head (lines : list hline)
| Body (data : list Byte.byte).

Record handler : Type := mkHandler {
  command : string;
  path : string;
  request_version : string;
  headers : list (string * string);
  close_connection : bool;
  headers_buffer : list hline;
  wfile : list chunk;
  stderr : list string
}.

Definition set_close_connection (b : bool) (self : handler) : handler :=
  mkHandler (command self) (path self) (request_version self) (headers self)
            b (headers_buffer self) (wfile self) (stderr self).

Definition set_headers_buffer (buf : list hline) (self : handler) : handler :=
  mkHandler (command self) (path self) (request_version self) (headers self)
            (close_connection self) buf (wfile self) (stderr self).

Definition set_wfile (w : list chunk) (self : handler) : handler :=
  mkHandler (command self) (path self) (request_version self) (headers self)
            (close_connection self) (headers_buffer self) w (stderr self).

Definition set_stderr (e : list string) (self : handler) : handler :=
  mkHandler (command self) (path self) (request_version self) (headers self)
            (close_connection self) (headers_buffer self) (wfile self) e.

(** *** Methods as state transformers on [self] *)

Definition M (A : Type) : Type := handler -> A * handler.

Definition ret {A} (a : A) : M A := fun self => (a, self).

Definition bind {A B} (m : M A) (k : A -> M B) : M B :=
  fun self => let (a, self') := m self in k a self'.

Definition gets {A} (f : handler -> A) : M A := fun self => (f self, self).

Definition modify (f : handler -> handler) : M unit := fun self => (tt, f self).

Definition when (b : bool) (m : M unit) : M unit := if b then m else ret tt.

Definition exec {A} (m : M A) (self : handler) : handler := snd (m self).

Declare Scope py_scope.
Delimit Scope py_scope with py.
Notation "x <- c1 ;; c2" := (bind c1 (fun x => c2))
  (at level 61, c1 at next level, right associativity) : py_scope.
Notation "c1 ;; c2" := (bind c1 (fun _ => c2))
  (at level 61, right associativity) : py_scope.
Open Scope py_scope.

(** A file as [open(path, 'rb')] and [os.fstat] see it; the modification
    time in whole seconds. *)
Record file : Type := mkFile {
  content : list Byte.byte;
  st_mtime : Z
}.

(** The file system calls of [send_head] and [list_directory];
    [None] stands for [OSError]. *)
Record os : Type := mkOs {
  isdir : string -> bool;
  isfile : string -> bool;
  open_rb : string -> option file;
  listdir : string -> option (list string)
}.

(** [posixpath.join] of a directory and a relative name. *)
Definition os_path_join (a b : string) : string :=
  if (a =? "")%string || endswith a "/" then a ++ b else a ++ "/" ++ b.

(** [name in self.headers] / [self.headers[name]]: header names compare
    without regard to case. *)
Fixpoint get_header (hs : list (string * string)) (name : string)
  : option string :=
  match hs with
  | [] => None
  | (k, v) :: hs' =>
      if (lower k =? lower name)%string then Some v else get_header hs' name
  end.

Definition protocol_version : string := "HTTP/1.0".
Definition error_content_type : string := "text/html;charset=utf-8".

Section Methods.

(** [SimpleHTTPRequestHandler.guess_type], the method being overridden. *)
Variable super_guess_type : string -> string.
(** [SimpleHTTPRequestHandler.translate_path]. *)
Variable translate_path : string -> string.
(** [urllib.parse.urlsplit(p).path], and the URL [send_head] redirects to. *)
Variable urlsplit_path : string -> string.
Variable redirect_url : string -> string.
(** [version_string()] and [date_time_string(timestamp)]. *)
Variable version_string : string.
Variable date_time_string : option Z -> string.
(** The table [self.responses]: code to short and long message. *)
Variable responses : Z -> option (string * string).
(** The encoded [error_message_format] page: code, message, explanation. *)
Variable error_page : Z -> string -> string -> list Byte.byte.
(** [email.utils.parsedate_to_datetime] on an [If-Modified-Since] value, as
    seconds since the epoch; [None] when ill-formed or not in UTC. *)
Variable parse_ims : string -> option Z.
(** The encoded HTML page of [list_directory] and its charset. *)
Variable listing_page : string -> string -> list string -> list Byte.byte.
Variable fs_encoding : string.
(** The files under the content root. *)
Variable fs : os.

(** **** [BaseHTTPRequestHandler] *)

Definition log_message (msg : string) : M unit :=
  modify (fun self => set_stderr (stderr self ++ [msg]) self).

Definition log_request (code : Z) : M unit :=
  log_message ("request " ++ str_of_Z code).

Definition log_error (code : Z) (message : string) : M unit :=
  log_message ("code " ++ str_of_Z code ++ ", message " ++ message).

Definition send_response_only (code : Z) (message : option string) : M unit :=
  fun self =>
    if negb (request_version self =? "HTTP/0.9")%string then
      let message :=
        match message with
        | Some m => m
        | None => match responses code with
                  | Some (short, _) => short
                  | None => ""
                  end
        end in
      (tt, set_headers_buffer
             (headers_buffer self ++ [StatusLine protocol_version code message])
             self)
    else (tt, self).

Definition send_header (keyword value : string) : M unit :=
  fun self =>
    let self :=
      if negb (request_version self =? "HTTP/0.9")%string then
        set_headers_buffer (headers_buffer self ++ [HeaderLine keyword value])
                           self
      else self in
    let self :=
      if (lower keyword =? "connection")%string then
        if (lower value =? "close")%string then set_close_connection true self
        else if (lower value =? "keep-alive")%string
             then set_close_connection false self
             else self
      else self in
    (tt, self).

Definition flush_headers : M unit :=
  modify (fun self =>
            set_headers_buffer []
              (set_wfile (wfile self ++ [Head (headers_buffer self)]) self)).

(** [BaseHTTPRequestHandler.end_headers], reached through [super()]. *)
Definition super_end_headers : M unit :=
  fun self =>
    if negb (request_version self =? "HTTP/0.9")%string then
      (modify (fun self =>
                 set_headers_buffer (headers_buffer self ++ [EndOfHeaders]) self) ;;
       flush_headers) self
    else (tt, self).

Definition send_response (code : Z) (message : option string) : M unit :=
  log_request code ;;
  send_response_only code message ;;
  send_header "Server" version_string ;;
  send_header "Date" (date_time_string None).

Definition wfile_write (data : list Byte.byte) : M unit :=
  modify (fun self => set_wfile (wfile self ++ [Body data]) self).

(** **** [MyHTTPRequestHandler] (serve.py) *)

Definition end_headers : M unit :=
  send_header "Access-Control-Allow-Origin" "*" ;;
  send_header "Access-Control-Allow-Methods" "GET, POST, OPTIONS" ;;
  send_header "Access-Control-Allow-Headers" "Content-Type" ;;
  super_end_headers.

Definition guess_type (path : string) : string :=
  let mimetype := super_guess_type path in
  if endswith path ".md" then "text/markdown"
  else if endswith path ".json" then "application/json"
  else mimetype.

(** **** Inherited methods that call the two overrides

    [self.end_headers()] and [self.guess_type(path)] below dispatch to the
    methods of [MyHTTPRequestHandler] above. *)

Definition send_error (code : Z) (message explain : option string) : M unit :=
  let (shortmsg, longmsg) :=
    match responses code with
    | Some p => p
    | None => ("???", "???")
    end in
  let message := match message with Some m => m | None => shortmsg end in
  let explain := match explain with Some e => e | None => longmsg end in
  log_error code message ;;
  send_response code (Some message) ;;
  send_header "Connection" "close" ;;
  let has_body :=
    (200 <=? code) && negb ((code =? 204) || (code =? 205) || (code =? 304)) in
  let body := error_page code message explain in
  when has_body
    (send_header "Content-Type" error_content_type ;;
     send_header "Content-Length" (str_of_Z (Z.of_nat (List.length body)))) ;;
  end_headers ;;
  cmd <- gets command ;;
  when (negb (cmd =? "HEAD")%string && has_body
        && negb (Nat.eqb (List.length body) 0))
    (wfile_write body).

Definition list_directory (path : string) : M (option (list Byte.byte)) :=
  match listdir fs path with
  | None =>
      send_error 404 (Some "No permission to list directory") None ;;
      ret None
  | Some names =>
      self_path <- gets Handler.path ;;
      let encoded := listing_page self_path path names in
      send_response 200 None ;;
      send_header "Content-type" ("text/html; charset=" ++ fs_encoding) ;;
      send_header "Content-Length" (str_of_Z (Z.of_nat (List.length encoded))) ;;
      end_headers ;;
      ret (Some encoded)
  end.

(** The test on [If-Modified-Since] in [send_head]: the header is present,
    [If-None-Match] is not, the date parses, and the file is not newer. *)
Definition not_modified (hs : list (string * string)) (f : file) : bool :=
  match get_header hs "If-Modified-Since", get_header hs "If-None-Match" with
  | Some v, None =>
      match parse_ims v with
      | Some ims => st_mtime f <=? ims
      | None => false
      end
  | _, _ => false
  end.

(** [send_head] from [ctype = self.guess_type(path)] on. *)
Definition send_head_file (path : string) : M (option (list Byte.byte)) :=
  let ctype := guess_type path in
  if endswith path "/" then
    send_error 404 (Some "File not found") None ;;
    ret None
  else
    match open_rb fs path with
    | None =>
        send_error 404 (Some "File not found") None ;;
        ret None
    | Some f =>
        hs <- gets headers ;;
        if not_modified hs f then
          send_response 304 None ;;
          end_headers ;;
          ret None
        else
          send_response 200 None ;;
          send_header "Content-type" ctype ;;
          send_header "Content-Length"
                      (str_of_Z (Z.of_nat (List.length (content f)))) ;;
          send_header "Last-Modified" (date_time_string (Some (st_mtime f))) ;;
          end_headers ;;
          ret (Some (content f))
    end.

Definition index_candidates (path : string) : list string :=
  [os_path_join path "index.html"; os_path_join path "index.htm"].

Definition send_head : M (option (list Byte.byte)) :=
  self_path <- gets Handler.path ;;
  let path := translate_path self_path in
  if isdir fs path then
    if negb (endswith (urlsplit_path self_path) "/") then
      send_response 301 None ;;
      send_header "Location" (redirect_url self_path) ;;
      send_header "Content-Length" "0" ;;
      end_headers ;;
      ret None
    else
      match List.find (isfile fs) (index_candidates path) with
      | Some index => send_head_file index
      | None => list_directory path
      end
  else send_head_file path.

Definition copyfile (source : list Byte.byte) : M unit := wfile_write source.

Definition do_GET : M unit :=
  f <- send_head ;;
  match f with
  | Some data => copyfile data
  | None => ret tt
  end.

Definition do_HEAD : M unit :=
  f <- send_head ;;
  ret tt.

(** [handle_one_request] once [parse_request] has filled in [command],
    [path], [request_version] and [headers]: [do_GET] and [do_HEAD] are the
    only [do_*] methods of the class. *)
Definition handle_parsed_request : M unit :=
  cmd <- gets command ;;
  if (cmd =? "GET")%string then do_GET
  else if (cmd =? "HEAD")%string then do_HEAD
  else send_error 501 (Some ("Unsupported method ('" ++ cmd ++ "')")) None.

(** **** The header sections these methods buffer *)

Definition status_message (code : Z) (message : option string) : string :=
  match message with
  | Some m => m
  | None => match responses code with
            | Some (short, _) => short
            | None => ""
            end
  end.

(** What [send_response] buffers. *)
Definition response_lines (code : Z) (message : option string) : list hline :=
  [StatusLine protocol_version code (status_message code message);
   HeaderLine "Server" version_string;
   HeaderLine "Date" (date_time_string None)].

(** What [send_error] buffers before it calls [end_headers]. *)
Definition error_lines (code : Z) (message : string) (body : list Byte.byte)
  : list hline :=
  (response_lines code (Some message)
   ++ [HeaderLine "Connection" "close"]
   ++ (if (200 <=? code)
          && negb ((code =? 204) || (code =? 205) || (code =? 304))
       then [HeaderLine "Content-Type" error_content_type;
             HeaderLine "Content-Length"
                        (str_of_Z (Z.of_nat (List.length body)))]
       else []))%list.

(** What [send_head] buffers for a file it is about to send. *)
Definition file_lines (path : string) (f : file) : list hline :=
  (response_lines 200 None
   ++ [HeaderLine "Content-type" (guess_type path);
       HeaderLine "Content-Length"
                  (str_of_Z (Z.of_nat (List.length (content f))));
       HeaderLine "Last-Modified" (date_time_string (Some (st_mtime f)))])%list.

End Methods.

(** *** What a client sees of a response *)

Definition cors_headers : list hline :=
  [HeaderLine "Access-Control-Allow-Origin" "*";
   HeaderLine "Access-Control-Allow-Methods" "GET, POST, OPTIONS";
   HeaderLine "Access-Control-Allow-Headers" "Content-Type"].

(** A header section that closes with the three CORS headers and the blank
    line. *)
Definition finalized (ls : list hline) : Prop :=
  exists pre, ls = (pre ++ cors_headers ++ [EndOfHeaders])%list.

Definition carries_cors (c : chunk) : Prop :=
  match c with
  | Head ls => finalized ls
  | Body _ => True
  end.

Definition status_of (ls : list hline) : option Z :=
  match ls with
  | StatusLine _ code _ :: _ => Some code
  | _ => None
  end.

(** The status code of the first header section written. *)
Fixpoint response_status (out : list chunk) : option Z :=
  match out with
  | [] => None
  | Head ls :: _ => status_of ls
  | Body _ :: out' => response_status out'
  end.

Fixpoint response_body (out : list chunk) : list Byte.byte :=
  match out with
  | [] => []
  | Head _ :: out' => response_body out'
  | Body data :: out' => (data ++ response_body out')%list
  end.

(** The value sent for a header, if it was sent. *)
Fixpoint header_value (keyword : string) (ls : list hline) : option string :=
  match ls with
  | [] => None
  | HeaderLine k v :: ls' =>
      if (k =? keyword)%string then Some v else header_value keyword ls'
  | _ :: ls' => header_value keyword ls'
  end.

(** The handler as [parse_request] leaves it for a well-formed request. *)
Definition request (command path version : string)
           (headers : list (string * string)) : handler :=
  mkHandler command path version headers true [] [] [].

Section Resolution.

Variable translate_path : string -> string.
Variable urlsplit_path : string -> string.
Variable fs : os.

(** Static-file resolution of a request path: the translated path, or the
    first index file of a directory asked for with a trailing slash. *)
Definition resolve (request_path : string) : option string :=
  let path := translate_path request_path in
  if isdir fs path then
    if endswith (urlsplit_path request_path) "/"
    then List.find (isfile fs) (index_candidates path)
    else None
  else Some path.

(** The existing readable file a request path resolves to, if any. *)
Definition resolved_file (request_path : string) : option (string * file) :=
  match resolve request_path with
  | Some path =>
      if endswith path "/" then None
      else match open_rb fs path with
           | Some f => Some (path, f)
           | None => None
           end
  | None => None
  end.

End Resolution.

(** The response has status 200 and the file's bytes as its body. *)
Definition served_with_200 (out : list chunk) (f : file) : Prop :=
  response_status out = Some 200 /\ response_body out = content f.

(** The request has a version other than HTTP/0.9, the one for which the
    library writes neither status line nor headers. *)
Definition http1 (self : handler) : Prop :=
  (request_version self =? "HTTP/0.9")%string = false.

(** A header keyword other than [Connection]. *)
Definition plain (keyword : string) : Prop :=
  (lower keyword =? "connection")%string = false.

(** [m] only appends to [wfile], and every header section it writes is
    finalized. *)
Definition writes_finalized {A} (m : M A) : Prop :=
  forall self, exists new,
    wfile (exec m self) = (wfile self ++ new)%list /\ Forall carries_cors new.

(** *** Counting headers *)

(** The line is a header of this name; header names compare without regard
    to case. *)
Definition has_keyword (name : string) (l : hline) : bool :=
  match l with
  | HeaderLine k _ => (lower k =? lower name)%string
  | _ => false
  end.

(** The section has exactly one header of this name, spelled and valued as
    given. *)
Definition sent_once (name value : string) (ls : list hline) : Prop :=
  filter (has_keyword name) ls = [HeaderLine name value].

Definition cors_once (c : chunk) : Prop :=
  match c with
  | Head ls =>
      sent_once "Access-Control-Allow-Origin" "*" ls /\
      sent_once "Access-Control-Allow-Methods" "GET, POST, OPTIONS" ls /\
      sent_once "Access-Control-Allow-Headers" "Content-Type" ls
  | Body _ => True
  end.

Definition is_cors_keyword (k : string) : bool :=
  existsb (fun name => (lower k =? lower name)%string)
          ["Access-Control-Allow-Origin"; "Access-Control-Allow-Methods";
           "Access-Control-Allow-Headers"].

Definition no_cors (l : hline) : bool :=
  match l with
  | HeaderLine k _ => negb (is_cors_keyword k)
  | _ => true
  end.

Definition is_body (c : chunk) : Prop :=
  match c with
  | Body _ => True
  | Head _ => False
  end.

(** The header sections among the chunks written. *)
Fixpoint heads (out : list chunk) : list (list hline) :=
  match out with
  | [] => []
  | Head ls :: out' => ls :: heads out'
  | Body _ :: out' => heads out'
  end.

(** No CORS header is waiting in the buffer. *)
Definition quiet (self : handler) : Prop :=
  forallb no_cors (headers_buffer self) = true.

Definition http09 (self : handler) : Prop :=
  request_version self = "HTTP/0.9".

(** Started in a state that satisfies [I], [m] ends in one that does, only
    appends to [wfile], and every chunk it appends satisfies [G]. *)
Definition keeps {A} (I : handler -> Prop) (G : chunk -> Prop) (m : M A)
  : Prop :=
  forall self,
    I self ->
    I (exec m self) /\
    exists new, wfile (exec m self) = (wfile self ++ new)%list /\ Forall G new.

End Handler.

(** ** The script

    The module-level statements of serve.py, run as [__main__].  Statements
    either return, raise, or (for [serve_forever]) do not come back; what the
    operating system answers is read from an [environment]. *)

Module Script.

Inductive exn : Type :=
| OSError (msg : string)
| KeyboardInterrupt
| SystemExit (code : Z).

(** What the process does to the outside world, in order. *)
Inductive event : Type :=
| Chdir (dir : string)
| Write (text : string)
| Bind (host : string) (port : Z)
| ServeForever
| ServerClose.

Record environment : Type := mkEnv {
  file__ : string;
  argv : list string;
  environ : list (string * string);
  (** the [OSError] of [os.chdir(dir)], if it raises *)
  chdir_error : string -> option string;
  (** the [OSError] of binding and listening on [(host, port)], if any *)
  bind_error : string -> Z -> option string;
  (** what ends [serve_forever]; [None] when nothing does *)
  serve_forever_end : option exn
}.

Inductive outcome (A : Type) : Type :=
| Return (a : A)
| Raise (e : exn)
| Diverge.
Arguments Return {A} a.
Arguments Raise {A} e.
Arguments Diverge {A}.

Definition Py (A : Type) : Type := list event -> outcome A * list event.

Definition ret {A} (a : A) : Py A := fun t => (Return a, t).

Definition bind {A B} (m : Py A) (k : A -> Py B) : Py B :=
  fun t =>
    match m t with
    | (Return a, t') => k a t'
    | (Raise e, t') => (Raise e, t')
    | (Diverge, t') => (Diverge, t')
    end.

Definition raise {A} (e : exn) : Py A := fun t => (Raise e, t).

Definition emit (ev : event) : Py unit := fun t => (Return tt, (t ++ [ev])%list).

(** [try: body / except ...: handler]; [handler e = None] when no clause
    matches [e]. *)
Definition try_except {A} (body : Py A) (handler : exn -> option (Py A))
  : Py A :=
  fun t =>
    match body t with
    | (Raise e, t') =>
        match handler e with
        | Some h => h t'
        | None => (Raise e, t')
        end
    | r => r
    end.

(** [try: body / finally: cleanup], as [with] runs [__exit__]. *)
Definition try_finally {A} (body : Py A) (cleanup : Py unit) : Py A :=
  fun t =>
    match body t with
    | (Return a, t') =>
        match cleanup t' with
        | (Return _, t'') => (Return a, t'')
        | (Raise e, t'') => (Raise e, t'')
        | (Diverge, t'') => (Diverge, t'')
        end
    | (Raise e, t') =>
        match cleanup t' with
        | (Return _, t'') => (Raise e, t'')
        | (Raise e', t'') => (Raise e', t'')
        | (Diverge, t'') => (Diverge, t'')
        end
    | (Diverge, t') => (Diverge, t')
    end.

Declare Scope script_scope.
Delimit Scope script_scope with script.
Notation "x <- c1 ;; c2" := (bind c1 (fun x => c2))
  (at level 61, c1 at next level, right associativity) : script_scope.
Notation "c1 ;; c2" := (bind c1 (fun _ => c2))
  (at level 61, right associativity) : script_scope.
Open Scope script_scope.

Definition nl : string := String "010"%char "".

Definition print (s : string) : Py unit := emit (Write (s ++ nl)).

Definition sys_exit {A} (code : Z) : Py A := raise (SystemExit code).

Section Main.

(** [pathlib]: [str(Path(p).parent)]. *)
Variable Path_parent : string -> string.

Variable env : environment.

Definition os_chdir (dir : string) : Py unit :=
  emit (Chdir dir) ;;
  match chdir_error env dir with
  | Some msg => raise (OSError msg)
  | None => ret tt
  end.

(** [socketserver.TCPServer((host, port), handler)]: bind and listen; the
    constructor closes the socket again when that fails. *)
Definition TCPServer (host : string) (port : Z) : Py unit :=
  emit (Bind host port) ;;
  match bind_error env host port with
  | Some msg => emit ServerClose ;; raise (OSError msg)
  | None => ret tt
  end.

Definition serve_forever : Py unit :=
  emit ServeForever ;;
  match serve_forever_end env with
  | Some e => raise e
  | None => fun t => (Diverge, t)
  end.

Definition server_close : Py unit := emit ServerClose.

Definition ebook_dir : string := Path_parent (file__ env).

Definition PORT : Z := 8000.

Definition main : Py unit :=
  print ("Starting FASM eBook server on port " ++ str_of_Z PORT) ;;
  print ("Serving from: " ++ ebook_dir) ;;
  print ("Open your browser to: http://localhost:" ++ str_of_Z PORT) ;;
  print "Press Ctrl+C to stop the server" ;;
  try_except
    (TCPServer "" PORT ;;
     try_finally serve_forever server_close)
    (fun e =>
       match e with
       | KeyboardInterrupt =>
           Some (print (nl ++ "Server stopped.") ;; sys_exit 0)
       | _ => None
       end).

Definition serve_py : Py unit :=
  os_chdir ebook_dir ;;
  main.

(** The interpreter around the script: exit status and what the traceback
    on standard error reports. *)
Inductive run : Type :=
| Exited (status : Z) (traceback : option exn) (trace : list event)
| Running (trace : list event).

Definition python : run :=
  match serve_py [] with
  | (Return _, t) => Exited 0 None t
  | (Raise (SystemExit code), t) => Exited code None t
  | (Raise KeyboardInterrupt, t) => Exited 130 (Some KeyboardInterrupt) t
  | (Raise (OSError msg), t) => Exited 1 (Some (OSError msg)) t
  | (Diverge, t) => Running t
  end.

End Main.

Definition trace_of (r : run) : list event :=
  match r with
  | Exited _ _ t => t
  | Running t => t
  end.

Fixpoint stdout (t : list event) : string :=
  match t with
  | [] => ""
  | Write s :: t' => s ++ stdout t'
  | _ :: t' => stdout t'
  end.

(** The lines of a text, each without its newline. *)
Fixpoint lines_from (cur s : string) : list string :=
  match s with
  | EmptyString => if (cur =? "")%string then [] else [cur]
  | String c s' =>
      if Ascii.eqb c "010" then cur :: lines_from "" s'
      else lines_from (cur ++ String c "") s'
  end.

Definition lines (s : string) : list string := lines_from "" s.

Fixpoint binds (t : list event) : list (string * Z) :=
  match t with
  | [] => []
  | Bind h p :: t' => (h, p) :: binds t'
  | _ :: t' => binds t'
  end.

Fixpoint chdirs (t : list event) : list string :=
  match t with
  | [] => []
  | Chdir d :: t' => d :: chdirs t'
  | _ :: t' => chdirs t'
  end.

Definition serving (t : list event) : bool :=
  existsb (fun ev => match ev with ServeForever => true | _ => false end) t.

(** The four [print] calls before the server is created. *)
Definition startup_lines (dir : string) : list string :=
  ["Starting FASM eBook server on port 8000";
   "Serving from: " ++ dir;
   "Open your browser to: http://localhost:8000";
   "Press Ctrl+C to stop the server"].

Definition startup (dir : string) : list event :=
  Chdir dir :: map (fun l => Write (l ++ nl)) (startup_lines dir).

(** What [print("\nServer stopped.")] writes. *)
Definition shutdown_text : string := nl ++ "Server stopped." ++ nl.

(** The process ended with a nonzero status before [serve_forever]. *)
Definition failed_to_start (r : run) : bool :=
  match r with
  | Exited status _ t => negb (status =? 0) && negb (serving t)
  | Running _ => false
  end.

(** The text made of the given lines, each closed by a newline. *)
Fixpoint unlines (ls : list string) : string :=
  match ls with
  | [] => ""
  | l :: ls' => l ++ nl ++ unlines ls'
  end.

(** Standard output has four lines: three at start-up and one at shutdown. *)
Definition three_startup_lines_one_shutdown_line (out : string) : Prop :=
  exists a b c d, lines out = [a; b; c; d].

Fixpoint no_newline (s : string) : bool :=
  match s with
  | EmptyString => true
  | String c s' => negb (Ascii.eqb c "010") && no_newline s'
  end.

(** The same environment with other command-line arguments and environment
    variables. *)
Definition with_args (env : environment) (args : list string)
           (vars : list (string * string)) : environment :=
  mkEnv (file__ env) args vars (chdir_error env) (bind_error env)
        (serve_forever_end env).

End Script.

(** ** A small content root, for examples *)

Module Demo.

Import Handler.

Definition root : string := "/srv/book".

Definition readme : file :=
  mkFile (list_byte_of_string "# Hello") 1000.

Definition fs : os :=
  mkOs (fun p => (p =? "/srv/book/")%string)
       (fun _ => false)
       (fun p => if (p =? "/srv/book/README.md")%string then Some readme
                 else None)
       (fun p => if (p =? "/srv/book/")%string then Some ["README.md"]
                 else None).

Definition super_guess_type (path : string) : string :=
  "application/octet-stream".
Definition translate_path (p : string) : string := root ++ p.
Definition urlsplit_path (p : string) : string := p.
Definition redirect_url (p : string) : string := p ++ "/".
Definition version_string : string := "SimpleHTTP/0.6 Python/3.11.2".
Definition date_time_string (t : option Z) : string :=
  "Thu, 01 Jan 1970 00:00:00 GMT".
Definition responses (code : Z) : option (string * string) :=
  if code =? 200 then Some ("OK", "Request fulfilled, document follows")
  else if code =? 304
       then Some ("Not Modified", "Document has not changed since given time")
  else if code =? 404 then Some ("Not Found", "Nothing matches the given URI")
  else None.
Definition error_page (code : Z) (message explain : string)
  : list Byte.byte :=
  list_byte_of_string ("<h1>Error response</h1><p>Message: " ++ message).
Definition parse_ims (v : string) : option Z :=
  if (v =? "Thu, 01 Jan 1970 00:33:20 GMT")%string then Some 2000 else None.
Definition listing_page (self_path path : string) (names : list string)
  : list Byte.byte := [].
Definition fs_encoding : string := "utf-8".

(** The handler run on one request against this content root. *)
Definition serve (self : handler) : list chunk :=
  wfile (exec (handle_parsed_request super_guess_type translate_path
                 urlsplit_path redirect_url version_string date_time_string
                 responses error_page parse_ims listing_page fs_encoding fs)
              self).

(** A browser revalidating its cached copy of the README. *)
Definition conditional_get : handler :=
  request "GET" "/README.md" "HTTP/1.1"
          [("If-Modified-Since", "Thu, 01 Jan 1970 00:33:20 GMT")].

Definition parent (p : string) : string := root.

Definition interrupted : Script.environment :=
  Script.mkEnv "/srv/book/serve.py" [] [] (fun _ => None) (fun _ _ => None)
               (Some Script.KeyboardInterrupt).

Definition port_in_use : Script.environment :=
  Script.mkEnv "/srv/book/serve.py" [] [] (fun _ => None)
               (fun _ _ => Some "[Errno 98] Address already in use") None.

Definition root_missing : Script.environment :=
  Script.mkEnv "/srv/book/serve.py" [] []
               (fun _ => Some "[Errno 2] No such file or directory")
               (fun _ _ => None) None.

(** The server runs and nothing ends it. *)
Definition running : Script.environment :=
  Script.mkEnv "/srv/book/serve.py" [] [] (fun _ => None) (fun _ _ => None)
               None.

(** The server runs until [select] fails in [serve_forever]. *)
Definition select_fails : Script.environment :=
  Script.mkEnv "/srv/book/serve.py" [] [] (fun _ => None) (fun _ _ => None)
               (Some (Script.OSError "[Errno 9] Bad file descriptor")).

End Demo.

(** * Properties *)

(** ** Strings *)

Module PyStrFacts.

Lemma endswith_unfold (s suffix : string) :
  endswith s suffix =
  if String.eqb s suffix then true
  else match s with
       | EmptyString => false
       | String _ s' => endswith s' suffix
       end.
Proof. destruct s; reflexivity. Qed.

Lemma endswith_app (s suffix : string) :
  endswith s suffix = true <-> exists p, s = p ++ suffix.
Proof.
  induction s as [|c s IH]; rewrite endswith_unfold;
    match goal with |- context [String.eqb ?x ?y] =>
      destruct (String.eqb_spec x y) as [<-|Hne] end;
    try (split; [intros _; exists ""; reflexivity | trivial]).
  - split; [intros H; discriminate H|].
    intros [p Hp]. destruct p; simpl in Hp; [congruence | discriminate].
  - rewrite IH. split.
    + intros [p ->]. exists (String c p). reflexivity.
    + intros [p Hp]. destruct p as [|d p]; simpl in Hp.
      * congruence.
      * injection Hp as _ ->. now exists p.
Qed.

Lemma length_app (a b : string) :
  String.length (a ++ b) = (String.length a + String.length b)%nat.
Proof. induction a; simpl; congruence. Qed.

Lemma app_same_length (p1 p2 a b : string) :
  p1 ++ a = p2 ++ b -> String.length a = String.length b -> a = b.
Proof.
  revert p2. induction p1 as [|c p1 IH]; intros [|d p2] H Hlen; simpl in H.
  - exact H.
  - subst a. simpl in Hlen. rewrite length_app in Hlen. lia.
  - subst b. simpl in Hlen. rewrite length_app in Hlen. lia.
  - injection H as _ H. eauto.
Qed.

Lemma last_char_app (p s : string) :
  s <> "" -> last_char (p ++ s) = last_char s.
Proof.
  intros Hs. induction p as [|c p IH]; simpl; [reflexivity|].
  rewrite IH. destruct (p ++ s) eqn:E; [|reflexivity].
  destruct p; simpl in E; [congruence | discriminate].
Qed.

Lemma endswith_same_length (s a b : string) :
  endswith s a = true -> endswith s b = true ->
  String.length a = String.length b -> a = b.
Proof.
  rewrite !endswith_app. intros [p1 ->] [p2 H] Hlen.
  eapply app_same_length; eauto.
Qed.

Lemma endswith_last_char (s a b : string) :
  endswith s a = true -> endswith s b = true ->
  a <> "" -> b <> "" -> last_char a = last_char b.
Proof.
  rewrite !endswith_app. intros [p1 ->] [p2 H] Ha Hb.
  rewrite <- (last_char_app p1 a Ha), H. now apply last_char_app.
Qed.

Lemma lower_length (s : string) : String.length (lower s) = String.length s.
Proof. induction s; simpl; congruence. Qed.

Lemma last_char_lower (s : string) :
  last_char (lower s) = option_map lower_ascii (last_char s).
Proof.
  induction s as [|c s IH]; simpl; [reflexivity|].
  destruct s; simpl in *; [reflexivity | exact IH].
Qed.

End PyStrFacts.

Import PyStrFacts.

(** ** Content types: [guess_type] *)

Module GuessType.

Import Handler.

Lemma md_not_json (path : string) :
  endswith path ".md" = true -> endswith path ".json" = false.
Proof.
  intros Hmd. destruct (endswith path ".json") eqn:Hjson; [|reflexivity].
  assert (H : last_char ".md" = last_char ".json")
    by (eapply endswith_last_char; eauto; discriminate).
  discriminate H.
Qed.

(** A suffix that differs from [ext] only by the case of its letters. *)
Definition case_variant (suffix ext : string) : Prop :=
  lower suffix = ext /\ suffix <> ext.

Lemma case_variant_last (suffix ext : string) (c d : ascii) :
  lower suffix = ext -> last_char ext = Some c ->
  last_char suffix = Some d -> lower_ascii d = c.
Proof.
  intros <- Hc Hd. rewrite last_char_lower, Hd in Hc. simpl in Hc. congruence.
Qed.

Lemma lower_nonempty (s : string) : lower s <> "" -> s <> "".
Proof. intros H ->. now apply H. Qed.

Lemma last_char_some (s : string) : s <> "" -> exists c, last_char s = Some c.
Proof.
  induction s as [|c s IH]; [congruence|]. intros _.
  destruct s as [|d s]; [now exists c|].
  destruct IH as [x Hx]; [discriminate|]. exists x. exact Hx.
Qed.

(** A case variant of one of the two extensions triggers neither test. *)
Lemma case_variant_misses (path suffix : string) :
  case_variant suffix ".md" \/ case_variant suffix ".json" ->
  endswith path suffix = true ->
  endswith path ".md" = false /\ endswith path ".json" = false.
Proof.
  intros Hv Hs.
  assert (Hne : suffix <> "")
    by (destruct Hv as [[H _]|[H _]]; apply lower_nonempty; rewrite H;
        discriminate).
  destruct (last_char_some suffix Hne) as [d Hd].
  assert (Hlen : forall ext, lower suffix = ext ->
                 String.length suffix = String.length ext)
    by (intros ext <-; symmetry; apply lower_length).
  assert (Hlast : forall ext c, endswith path ext = true -> ext <> "" ->
                  last_char ext = Some c -> d = c).
  { intros ext c He Hn Hc.
    pose proof (endswith_last_char path suffix ext Hs He Hne Hn) as E.
    congruence. }
  destruct Hv as [[Hl Hd']|[Hl Hd']]; split.
  - destruct (endswith path ".md") eqn:E; [|reflexivity].
    exfalso. apply Hd'. eapply endswith_same_length; eauto.
  - destruct (endswith path ".json") eqn:E; [|reflexivity].
    exfalso.
    assert (d = "n"%char) by (eapply Hlast; eauto; discriminate).
    subst d.
    pose proof (case_variant_last suffix ".md" "d" "n" Hl eq_refl Hd) as X.
    discriminate X.
  - destruct (endswith path ".md") eqn:E; [|reflexivity].
    exfalso.
    assert (d = "d"%char) by (eapply Hlast; eauto; discriminate).
    subst d.
    pose proof (case_variant_last suffix ".json" "n" "d" Hl eq_refl Hd) as X.
    discriminate X.
  - destruct (endswith path ".json") eqn:E; [|reflexivity].
    exfalso. apply Hd'. eapply endswith_same_length; eauto.
Qed.

Section Claims.

Variable super_guess_type : string -> string.

(** C2. For every path ending in [.md], [guess_type] returns exactly
    [text/markdown], whatever the inherited extension lookup returns for that
    path. *)
Theorem guess_type_md (path : string) :
  endswith path ".md" = true ->
  guess_type super_guess_type path = "text/markdown".
Proof. intros H. unfold guess_type. now rewrite H. Qed.

(** C3. For every path ending in [.json], [guess_type] returns exactly
    [application/json]. *)
Theorem guess_type_json (path : string) :
  endswith path ".json" = true ->
  guess_type super_guess_type path = "application/json".
Proof.
  intros H. unfold guess_type.
  destruct (endswith path ".md") eqn:Hmd.
  - apply md_not_json in Hmd. congruence.
  - now rewrite H.
Qed.

(** C4. For every path ending in neither [.md] nor [.json], [guess_type]
    returns the result of the inherited extension lookup, unchanged. *)
Theorem guess_type_default (path : string) :
  endswith path ".md" = false ->
  endswith path ".json" = false ->
  guess_type super_guess_type path = super_guess_type path.
Proof. intros Hmd Hjson. unfold guess_type. now rewrite Hmd, Hjson. Qed.

(** C10. The two suffix tests are case-sensitive and made in the order [.md],
    [.json]: a path ending in an upper- or mixed-case variant of either
    extension gets the inherited lookup's result, and a path ending in [.md]
    is never given [application/json]. *)
Theorem guess_type_case_sensitive :
  (forall path suffix,
      case_variant suffix ".md" \/ case_variant suffix ".json" ->
      endswith path suffix = true ->
      guess_type super_guess_type path = super_guess_type path) /\
  (forall path,
      endswith path ".md" = true ->
      guess_type super_guess_type path <> "application/json").
Proof.
  split.
  - intros path suffix Hv Hs.
    destruct (case_variant_misses path suffix Hv Hs) as [Hmd Hjson].
    unfold guess_type. now rewrite Hmd, Hjson.
  - intros path H. unfold guess_type. rewrite H. discriminate.
Qed.

(** X8. The two tests look at the very end of the path: a path shorter than
    three characters, or one that ends in any character other than [d] or
    [n] - a trailing slash, a tilde, a further extension - gets the inherited
    lookup's result. *)
Theorem guess_type_is_a_suffix_test :
  (forall path,
      (String.length path < 3)%nat ->
      guess_type super_guess_type path = super_guess_type path) /\
  (forall path c,
      c <> "d"%char -> c <> "n"%char ->
      guess_type super_guess_type (path ++ String c "")
      = super_guess_type (path ++ String c "")).
Proof.
  split.
  - intros path Hlen. unfold guess_type.
    destruct (endswith path ".md") eqn:Hmd.
    { apply endswith_app in Hmd as [p ->].
      rewrite length_app in Hlen. cbn in Hlen. lia. }
    destruct (endswith path ".json") eqn:Hjson; [|reflexivity].
    apply endswith_app in Hjson as [p ->].
    rewrite length_app in Hlen. cbn in Hlen. lia.
  - intros path c Hd Hn. unfold guess_type.
    assert (Hc : endswith (path ++ String c "") (String c "") = true)
      by (apply endswith_app; now exists path).
    destruct (endswith (path ++ String c "") ".md") eqn:Hmd.
    { pose proof (endswith_last_char _ _ _ Hc Hmd) as E.
      cbn in E. exfalso. apply Hd.
      assert (Some c = Some "d"%char) by (apply E; discriminate).
      congruence. }
    destruct (endswith (path ++ String c "") ".json") eqn:Hjson;
      [|reflexivity].
    pose proof (endswith_last_char _ _ _ Hc Hjson) as E.
    cbn in E. exfalso. apply Hn.
    assert (Some c = Some "n"%char) by (apply E; discriminate).
    congruence.
Qed.


End Claims.

End GuessType.

Lemma guess_type_md_witness :
  endswith "README.md" ".md" = true /\
  Handler.guess_type (fun _ => "text/plain") "README.md" = "text/markdown".
Proof.
  split; [reflexivity | apply GuessType.guess_type_md; reflexivity].
Defined.

Lemma guess_type_json_witness :
  endswith "data.json" ".json" = true /\
  Handler.guess_type (fun _ => "text/plain") "data.json" = "application/json".
Proof.
  split; [reflexivity | apply GuessType.guess_type_json; reflexivity].
Defined.

Lemma guess_type_default_witness :
  endswith "index.html" ".md" = false /\
  endswith "index.html" ".json" = false /\
  Handler.guess_type (fun _ => "text/html") "index.html" = "text/html".
Proof.
  split; [reflexivity | split; [reflexivity|]].
  apply (GuessType.guess_type_default (fun _ => "text/html"));
    reflexivity.
Defined.

Lemma guess_type_case_sensitive_witness :
  GuessType.case_variant ".MD" ".md" /\
  endswith "NOTES.MD" ".MD" = true /\
  Handler.guess_type (fun _ => "text/plain") "NOTES.MD" = "text/plain" /\
  GuessType.case_variant ".Json" ".json" /\
  endswith "data.Json" ".Json" = true /\
  Handler.guess_type (fun _ => "text/plain") "data.Json" = "text/plain" /\
  Handler.guess_type (fun _ => "text/plain") "a.md" <> "application/json".
Proof.
  assert (Hmd : GuessType.case_variant ".MD" ".md")
    by (split; [reflexivity | discriminate]).
  assert (Hjson : GuessType.case_variant ".Json" ".json")
    by (split; [reflexivity | discriminate]).
  destruct (GuessType.guess_type_case_sensitive (fun _ => "text/plain"))
    as [Hvariant Horder].
  split; [exact Hmd|]. split; [reflexivity|]. split.
  { apply (Hvariant "NOTES.MD" ".MD"); [left; exact Hmd | reflexivity]. }
  split; [exact Hjson|]. split; [reflexivity|]. split.
  { apply (Hvariant "data.Json" ".Json"); [right; exact Hjson | reflexivity]. }
  apply Horder. reflexivity.
Defined.

(** ** Responses: [end_headers] and the methods that call it *)

Module HandlerFacts.

Import Handler.

Lemma send_header_http1 (k v : string) (self : handler) :
  http1 self -> plain k ->
  send_header k v self =
  (tt, set_headers_buffer (headers_buffer self ++ [HeaderLine k v]) self).
Proof.
  unfold http1, plain, send_header. intros -> ->. reflexivity.
Qed.

Lemma bind_send_header {A} (k v : string) (f : unit -> M A) (self : handler) :
  http1 self -> plain k ->
  bind (send_header k v) f self =
  f tt (set_headers_buffer (headers_buffer self ++ [HeaderLine k v]) self).
Proof.
  intros Hv Hk. unfold bind. now rewrite send_header_http1.
Qed.

Lemma super_end_headers_http1 (self : handler) :
  http1 self ->
  super_end_headers self =
  (tt, set_headers_buffer []
         (set_wfile (wfile self ++ [Head (headers_buffer self ++ [EndOfHeaders])])
                    self)).
Proof.
  unfold http1, super_end_headers. intros ->. reflexivity.
Qed.

Lemma end_headers_http1 (self : handler) :
  http1 self ->
  end_headers self =
  (tt, set_headers_buffer []
         (set_wfile (wfile self ++
                     [Head (headers_buffer self ++ cors_headers ++ [EndOfHeaders])])
                    self)).
Proof.
  intros Hv. unfold end_headers.
  rewrite !bind_send_header by (exact Hv || reflexivity).
  rewrite super_end_headers_http1 by exact Hv.
  cbn. rewrite <- !app_assoc. reflexivity.
Qed.

(** For an HTTP/0.9 request there is no header section: nothing is buffered
    and nothing is written. *)
Lemma send_header_http09 (k v : string) (self : handler) :
  (request_version self =? "HTTP/0.9")%string = true -> plain k ->
  send_header k v self = (tt, self).
Proof.
  unfold plain, send_header. intros -> ->. reflexivity.
Qed.

Lemma end_headers_http09 (self : handler) :
  (request_version self =? "HTTP/0.9")%string = true ->
  end_headers self = (tt, self).
Proof.
  intros Hv. unfold end_headers, bind.
  rewrite !send_header_http09 by (exact Hv || reflexivity).
  unfold super_end_headers. rewrite Hv. reflexivity.
Qed.

(** *** Every header section written is finalized *)

Lemma wf_keeps {A} (m : M A) :
  (forall self, wfile (exec m self) = wfile self) -> writes_finalized m.
Proof.
  intros H self. exists []. rewrite H, app_nil_r. auto.
Qed.

Lemma wf_ret {A} (a : A) : writes_finalized (ret a).
Proof. now apply wf_keeps. Qed.

Lemma wf_gets {A} (f : handler -> A) : writes_finalized (gets f).
Proof. now apply wf_keeps. Qed.

Lemma wf_bind {A B} (m : M A) (k : A -> M B) :
  writes_finalized m -> (forall a, writes_finalized (k a)) ->
  writes_finalized (bind m k).
Proof.
  intros Hm Hk self. unfold exec, bind.
  destruct (Hm self) as [n1 [E1 F1]]. unfold exec in E1.
  destruct (m self) as [a self']. simpl in E1.
  destruct (Hk a self') as [n2 [E2 F2]]. unfold exec in E2.
  exists (n1 ++ n2)%list. rewrite E2, E1, app_assoc. split; [reflexivity|].
  apply Forall_app. auto.
Qed.

Lemma wf_when (b : bool) (m : M unit) :
  writes_finalized m -> writes_finalized (when b m).
Proof. destruct b; simpl; [trivial | intros _; apply wf_ret]. Qed.

Lemma wf_log_message (msg : string) : writes_finalized (log_message msg).
Proof. now apply wf_keeps. Qed.

Lemma wf_send_header (k v : string) : writes_finalized (send_header k v).
Proof.
  apply wf_keeps. intros self. unfold exec, send_header.
  repeat match goal with |- context [if ?b then _ else _] => destruct b end;
    reflexivity.
Qed.

Lemma wf_wfile_write (data : list Byte.byte) :
  writes_finalized (wfile_write data).
Proof.
  intros self. exists [Body data]. split; [reflexivity|].
  constructor; simpl; auto.
Qed.

Lemma wf_end_headers : writes_finalized end_headers.
Proof.
  intros self. unfold exec.
  destruct (request_version self =? "HTTP/0.9")%string eqn:Hv.
  - rewrite end_headers_http09 by exact Hv. exists [].
    simpl. rewrite app_nil_r. auto.
  - rewrite end_headers_http1 by exact Hv.
    exists [Head (headers_buffer self ++ cors_headers ++ [EndOfHeaders])].
    split; [reflexivity|]. constructor; [|constructor].
    now exists (headers_buffer self).
Qed.

Create HintDb wf.

#[local] Hint Resolve wf_ret wf_gets wf_when wf_log_message wf_send_header
  wf_wfile_write wf_end_headers : wf.

Ltac wf :=
  repeat first [ solve [auto with wf] | apply wf_when
               | apply wf_bind; [|intros ?] ].

Section Methods.

Variable super_guess_type : string -> string.
Variable translate_path : string -> string.
Variable urlsplit_path : string -> string.
Variable redirect_url : string -> string.
Variable version_string : string.
Variable date_time_string : option Z -> string.
Variable responses : Z -> option (string * string).
Variable error_page : Z -> string -> string -> list Byte.byte.
Variable parse_ims : string -> option Z.
Variable listing_page : string -> string -> list string -> list Byte.byte.
Variable fs_encoding : string.
Variable fs : os.

Local Abbreviation status_message := (status_message responses).
Local Abbreviation response_lines :=
  (response_lines version_string date_time_string responses).
Local Abbreviation error_lines :=
  (error_lines version_string date_time_string responses).
Local Abbreviation file_lines :=
  (file_lines super_guess_type version_string date_time_string responses).
Local Abbreviation send_response_only := (send_response_only responses).
Local Abbreviation send_response :=
  (send_response version_string date_time_string responses).
Local Abbreviation send_error :=
  (send_error version_string date_time_string responses error_page).
Local Abbreviation list_directory :=
  (list_directory version_string date_time_string responses error_page
                  listing_page fs_encoding fs).
Local Abbreviation send_head_file :=
  (send_head_file super_guess_type version_string date_time_string responses
                  error_page parse_ims fs).
Local Abbreviation send_head :=
  (send_head super_guess_type translate_path urlsplit_path redirect_url
             version_string date_time_string responses error_page parse_ims
             listing_page fs_encoding fs).
Local Abbreviation do_GET :=
  (do_GET super_guess_type translate_path urlsplit_path redirect_url
          version_string date_time_string responses error_page parse_ims
          listing_page fs_encoding fs).
Local Abbreviation do_HEAD :=
  (do_HEAD super_guess_type translate_path urlsplit_path redirect_url
           version_string date_time_string responses error_page parse_ims
           listing_page fs_encoding fs).
Local Abbreviation handle_parsed_request :=
  (handle_parsed_request super_guess_type translate_path urlsplit_path
     redirect_url version_string date_time_string responses error_page
     parse_ims listing_page fs_encoding fs).

Lemma wf_send_response_only (code : Z) (message : option string) :
  writes_finalized (send_response_only code message).
Proof.
  apply wf_keeps. intros self. unfold exec, Handler.send_response_only.
  destruct (negb _); reflexivity.
Qed.

Lemma wf_send_response (code : Z) (message : option string) :
  writes_finalized (send_response code message).
Proof.
  unfold Handler.send_response, log_request.
  pose proof wf_send_response_only. wf.
Qed.

Lemma wf_send_error (code : Z) (message explain : option string) :
  writes_finalized (send_error code message explain).
Proof.
  unfold Handler.send_error. destruct (match responses code with _ => _ end).
  unfold log_error. pose proof wf_send_response. wf.
Qed.

Lemma wf_list_directory (path : string) : writes_finalized (list_directory path).
Proof.
  unfold Handler.list_directory.
  pose proof wf_send_response. pose proof wf_send_error.
  destruct (listdir fs path); wf.
Qed.

Lemma wf_send_head_file (path : string) : writes_finalized (send_head_file path).
Proof.
  unfold Handler.send_head_file.
  pose proof wf_send_response. pose proof wf_send_error.
  destruct (endswith path "/"); [wf|].
  destruct (open_rb fs path); wf.
  destruct (not_modified _ _ _); wf.
Qed.

Lemma wf_send_head : writes_finalized send_head.
Proof.
  unfold Handler.send_head.
  pose proof wf_send_response. pose proof wf_send_head_file.
  pose proof wf_list_directory.
  wf. destruct (isdir fs _); [|wf].
  destruct (negb _); [wf|]. destruct (find _ _); wf.
Qed.

Lemma wf_handle_parsed_request : writes_finalized handle_parsed_request.
Proof.
  unfold Handler.handle_parsed_request, Handler.do_GET, Handler.do_HEAD,
    copyfile.
  pose proof wf_send_head. pose proof wf_send_error.
  wf. destruct (_ =? "GET")%string; [wf; destruct a0; wf|].
  destruct (_ =? "HEAD")%string; wf.
Qed.


(** *** The responses to an HTTP/1.x request, header by header *)

Lemma bind_gets {A B} (g : handler -> A) (f : A -> M B) (self : handler) :
  bind (gets g) f self = f (g self) self.
Proof. reflexivity. Qed.

Lemma bind_ret {A B} (a : A) (f : A -> M B) (self : handler) :
  bind (ret a) f self = f a self.
Proof. reflexivity. Qed.

Lemma bind_end_headers {A} (f : unit -> M A) (self : handler) :
  http1 self ->
  bind end_headers f self =
  f tt (set_headers_buffer []
          (set_wfile (wfile self ++
                      [Head (headers_buffer self ++ cors_headers
                                            ++ [EndOfHeaders])]) self)).
Proof. intros Hv. unfold bind. now rewrite end_headers_http1. Qed.

Lemma bind_send_header_close {A} (f : unit -> M A) (self : handler) :
  http1 self ->
  bind (send_header "Connection" "close") f self =
  f tt (set_close_connection true
          (set_headers_buffer
             (headers_buffer self ++ [HeaderLine "Connection" "close"]) self)).
Proof.
  unfold http1, bind, send_header. intros ->. reflexivity.
Qed.

Lemma bind_bind {A B C} (m : M A) (k : A -> M B) (f : B -> M C)
      (self : handler) :
  bind (bind m k) f self = bind m (fun a => bind (k a) f) self.
Proof. unfold bind. destruct (m self). reflexivity. Qed.

Lemma bind_modify {A} (g : handler -> handler) (f : unit -> M A)
      (self : handler) :
  bind (modify g) f self = f tt (g self).
Proof. reflexivity. Qed.

Lemma bind_send_response_only {A} (code : Z) (message : option string)
      (f : unit -> M A) (self : handler) :
  http1 self ->
  bind (send_response_only code message) f self =
  f tt (set_headers_buffer
          (headers_buffer self
           ++ [StatusLine protocol_version code (status_message code message)])
          self).
Proof.
  unfold http1, bind, Handler.send_response_only, status_message.
  intros ->. reflexivity.
Qed.

Ltac run0 Hv :=
  repeat match goal with
    | |- context [bind (bind ?m ?k) ?f ?s] => rewrite (bind_bind m k f s)
    | |- context [bind (gets ?g) ?f ?s] => rewrite (bind_gets g f s)
    | |- context [bind (ret ?a) ?f ?s] => rewrite (bind_ret a f s)
    | |- context [bind (modify ?g) ?f ?s] => rewrite (bind_modify g f s)
    | |- context [bind (Handler.send_response_only ?r ?c ?m) ?f ?s] =>
        rewrite (bind_send_response_only c m f s) by exact Hv
    | |- context [bind (send_header "Connection" "close") ?f ?s] =>
        rewrite (bind_send_header_close f s) by exact Hv
    | |- context [bind (send_header ?k ?v) ?f ?s] =>
        rewrite (bind_send_header k v f s) by (exact Hv || reflexivity)
    | |- context [bind end_headers ?f ?s] =>
        rewrite (bind_end_headers f s) by exact Hv
    | _ => progress cbv beta
    end.

Lemma bind_send_response {A} (code : Z) (message : option string)
      (f : unit -> M A) (self : handler) :
  http1 self ->
  bind (send_response code message) f self =
  f tt (set_headers_buffer
          (headers_buffer self ++ response_lines code message)
          (set_stderr (stderr self ++ ["request " ++ str_of_Z code]) self)).
Proof.
  intros Hv. unfold Handler.send_response, log_request, log_message.
  run0 Hv. unfold response_lines.
  cbn [headers_buffer set_headers_buffer set_stderr wfile command path
       request_version headers close_connection stderr].
  rewrite <- !app_assoc. reflexivity.
Qed.

Ltac project :=
  cbn [wfile headers_buffer command path request_version headers stderr
       close_connection set_wfile set_headers_buffer set_stderr
       set_close_connection snd fst].

Ltac run Hv :=
  repeat first
    [ progress run0 Hv
    | match goal with
      | |- context [bind (Handler.send_response ?v ?d ?r ?c ?m) ?f ?s] =>
          rewrite (bind_send_response c m f s) by exact Hv
      end
    | progress project ].

Ltac lists := project; rewrite <- ?app_assoc; cbn [app]; try reflexivity.

Lemma send_error_http1 (code : Z) (message explain : option string)
      (self : handler) :
  http1 self ->
  exists msg body rest self',
    send_error code message explain self = (tt, self') /\
    wfile self' =
    (wfile self
     ++ Head (headers_buffer self ++ error_lines code msg body
                ++ cors_headers ++ [EndOfHeaders]) :: rest)%list /\
    Forall (fun c => c = Body body) rest.
Proof.
  intros Hv. unfold Handler.send_error.
  destruct (match responses code with Some p => p | None => _ end)
    as [shortmsg longmsg].
  set (msg := match message with Some m => m | None => shortmsg end).
  set (explain' := match explain with Some e => e | None => longmsg end).
  set (body := error_page code msg explain').
  exists msg, body. unfold error_lines, log_error, log_message.
  run Hv.
  destruct ((200 <=? code)
            && negb ((code =? 204) || (code =? 205) || (code =? 304)));
    unfold when at 1; run Hv;
    match goal with |- context [when ?b _] => destruct b end;
    unfold when, wfile_write, modify, ret.
  - exists [Body body]. eexists. split; [reflexivity|]. split; auto. lists.
  - exists []. eexists. split; [reflexivity|]. split; auto. lists.
  - exists [Body body]. eexists. split; [reflexivity|]. split; auto. lists.
  - exists []. eexists. split; [reflexivity|]. split; auto. lists.
Qed.

Lemma bind_eq {A B} (m : M A) (f : A -> M B) (self self' : handler) (a : A) :
  m self = (a, self') -> bind m f self = f a self'.
Proof. unfold bind. now intros ->. Qed.

Lemma send_head_file_missing (path : string) (self : handler) :
  http1 self ->
  endswith path "/" = true \/ open_rb fs path = None ->
  exists msg body rest self',
    send_head_file path self = (None, self') /\
    wfile self' =
    (wfile self
     ++ Head (headers_buffer self ++ error_lines 404 msg body
                ++ cors_headers ++ [EndOfHeaders]) :: rest)%list /\
    Forall (fun c => c = Body body) rest.
Proof.
  intros Hv Hmiss.
  destruct (send_error_http1 404 (Some "File not found") None self Hv)
    as (msg & body & rest & self' & E & Hw & Hr).
  exists msg, body, rest, self'. split; [|auto].
  unfold Handler.send_head_file.
  destruct (endswith path "/").
  - now rewrite (bind_eq _ _ _ _ _ E).
  - destruct Hmiss as [Hs|Ho]; [discriminate|]. rewrite Ho.
    now rewrite (bind_eq _ _ _ _ _ E).
Qed.

Lemma send_head_file_found (path : string) (f : file) (self : handler) :
  http1 self ->
  endswith path "/" = false -> open_rb fs path = Some f ->
  exists self',
    send_head_file path self =
    (if not_modified parse_ims (headers self) f then None
     else Some (content f), self') /\
    wfile self' =
    (wfile self
     ++ [Head (headers_buffer self
               ++ (if not_modified parse_ims (headers self) f
                   then response_lines 304 None else file_lines path f)
               ++ cors_headers ++ [EndOfHeaders])])%list.
Proof.
  intros Hv Hs Ho. unfold Handler.send_head_file, file_lines.
  rewrite Hs, Ho. run Hv.
  destruct (not_modified parse_ims (headers self) f); run Hv;
    unfold ret; eexists; (split; [reflexivity|]); lists.
Qed.

Lemma send_head_resolve (p : string) (self : handler) :
  resolve translate_path urlsplit_path fs (path self) = Some p ->
  send_head self = send_head_file p self.
Proof.
  unfold resolve, Handler.send_head. rewrite bind_gets.
  destruct (isdir fs _); [|congruence].
  destruct (endswith _ "/"); [|discriminate]. cbn [negb].
  now intros ->.
Qed.

Lemma do_GET_unfold (self : handler) :
  do_GET self =
  bind send_head
       (fun f => match f with
                 | Some data => copyfile data
                 | None => ret tt
                 end) self.
Proof. reflexivity. Qed.

Lemma handle_GET (P version : string) (hs : list (string * string)) :
  handle_parsed_request (request "GET" P version hs) =
  do_GET (request "GET" P version hs).
Proof. reflexivity. Qed.

Lemma handle_HEAD (P version : string) (hs : list (string * string)) :
  handle_parsed_request (request "HEAD" P version hs) =
  do_HEAD (request "HEAD" P version hs).
Proof. reflexivity. Qed.

Lemma http1_request (command P version : string)
      (hs : list (string * string)) :
  version <> "HTTP/0.9" -> http1 (request command P version hs).
Proof. intros H. now apply String.eqb_neq. Qed.

Lemma resolved_file_none (P p : string) :
  resolve translate_path urlsplit_path fs P = Some p ->
  resolved_file translate_path urlsplit_path fs P = None ->
  endswith p "/" = true \/ open_rb fs p = None.
Proof.
  unfold resolved_file. intros ->.
  destruct (endswith p "/"); [now left|].
  destruct (open_rb fs p); [discriminate | now right].
Qed.

Lemma resolved_file_some (P p : string) (F : file) :
  resolved_file translate_path urlsplit_path fs P = Some (p, F) ->
  resolve translate_path urlsplit_path fs P = Some p /\
  endswith p "/" = false /\ open_rb fs p = Some F.
Proof.
  unfold resolved_file.
  destruct (resolve _ _ _ P) as [q|]; [|discriminate].
  destruct (endswith q "/") eqn:Hs; [discriminate|].
  destruct (open_rb fs q) eqn:Ho; [|discriminate].
  intros [= -> ->]. auto.
Qed.


(** The [Content-type] header of a file that is served is what [guess_type]
    returns for the path the request resolved to. *)
Lemma served_file_content_type (P version : string)
      (hs : list (string * string)) (p : string) (F : file) :
  version <> "HTTP/0.9" ->
  resolved_file translate_path urlsplit_path fs P = Some (p, F) ->
  not_modified parse_ims hs F = false ->
  exists ls,
    wfile (exec handle_parsed_request (request "GET" P version hs))
    = [Head ls; Body (content F)] /\
    header_value "Content-type" ls = Some (guess_type super_guess_type p) /\
    finalized ls.
Proof.
  intros Hver Hfile Hmod.
  pose proof (http1_request "GET" P version hs Hver) as Hv.
  destruct (resolved_file_some P p F Hfile) as (Hres & Hs & Ho).
  destruct (send_head_file_found p F _ Hv Hs Ho) as (self' & E & Hw).
  rewrite <- (send_head_resolve p (request "GET" P version hs) Hres) in E.
  change (headers (request "GET" P version hs)) with hs in *.
  rewrite Hmod in E, Hw.
  exists (file_lines p F ++ cors_headers ++ [EndOfHeaders])%list.
  split; [|split].
  - unfold exec. rewrite handle_GET, do_GET_unfold, (bind_eq _ _ _ _ _ E).
    unfold copyfile, wfile_write, modify. cbn [snd wfile set_wfile].
    rewrite Hw. reflexivity.
  - reflexivity.
  - now exists (file_lines p F).
Qed.


(** *** Further properties of the responses *)

Section Keeps.

Variable I : handler -> Prop.
Variable G : chunk -> Prop.

Lemma keeps_ret {A} (a : A) : keeps I G (ret a).
Proof.
  intros self HI. split; [exact HI|]. exists []. now rewrite app_nil_r.
Qed.

Lemma keeps_gets {A} (f : handler -> A) : keeps I G (gets f).
Proof.
  intros self HI. split; [exact HI|]. exists []. now rewrite app_nil_r.
Qed.

Lemma keeps_bind {A B} (m : M A) (k : A -> M B) :
  keeps I G m -> (forall a, keeps I G (k a)) -> keeps I G (bind m k).
Proof.
  intros Hm Hk self HI. unfold exec, bind.
  destruct (Hm self HI) as [HI1 [n1 [E1 F1]]]. unfold exec in HI1, E1.
  destruct (m self) as [a self']. cbn [snd] in HI1, E1.
  destruct (Hk a self' HI1) as [HI2 [n2 [E2 F2]]]. unfold exec in HI2, E2.
  split; [exact HI2|].
  exists (n1 ++ n2)%list. rewrite E2, E1, app_assoc. split; [reflexivity|].
  apply Forall_app. auto.
Qed.

Lemma keeps_when (b : bool) (m : M unit) :
  keeps I G m -> keeps I G (when b m).
Proof. destruct b; cbn [when]; [trivial | intros _; apply keeps_ret]. Qed.

(** What the primitives of the handler are assumed to keep. *)
Hypothesis keeps_log_message : forall msg, keeps I G (log_message msg).
Hypothesis keeps_send_response_only :
  forall code message, keeps I G (send_response_only code message).
Hypothesis keeps_send_header :
  forall k v, is_cors_keyword k = false -> keeps I G (send_header k v).
Hypothesis keeps_end_headers : keeps I G end_headers.
Hypothesis keeps_wfile_write : forall data, keeps I G (wfile_write data).

Ltac keeps :=
  repeat first
    [ solve [auto]
    | apply keeps_ret | apply keeps_gets | apply keeps_log_message
    | apply keeps_send_response_only | apply keeps_wfile_write
    | apply keeps_send_header; reflexivity
    | apply keeps_when
    | apply keeps_bind; [|intros ?] ].

Lemma keeps_send_response (code : Z) (message : option string) :
  keeps I G (send_response code message).
Proof.
  unfold Handler.send_response, log_request.
  apply keeps_bind; [apply keeps_log_message | intros _].
  apply keeps_bind; [apply keeps_send_response_only | intros _].
  apply keeps_bind; [apply keeps_send_header; reflexivity | intros _].
  apply keeps_send_header; reflexivity.
Qed.

Lemma keeps_send_error (code : Z) (message explain : option string) :
  keeps I G (send_error code message explain).
Proof.
  pose proof keeps_send_response.
  unfold Handler.send_error, log_error.
  destruct (responses code) as [[shortmsg longmsg]|]; keeps.
Qed.

Lemma keeps_list_directory (path : string) : keeps I G (list_directory path).
Proof.
  unfold Handler.list_directory.
  pose proof keeps_send_response. pose proof keeps_send_error.
  destruct (listdir fs path); keeps.
Qed.

Lemma keeps_send_head_file (path : string) :
  keeps I G (send_head_file path).
Proof.
  unfold Handler.send_head_file.
  pose proof keeps_send_response. pose proof keeps_send_error.
  destruct (endswith path "/"); [keeps|].
  destruct (open_rb fs path); keeps.
  destruct (not_modified _ _ _); keeps.
Qed.

Lemma keeps_send_head : keeps I G send_head.
Proof.
  unfold Handler.send_head.
  pose proof keeps_send_response. pose proof keeps_send_head_file.
  pose proof keeps_list_directory.
  keeps. destruct (isdir fs _); [|keeps].
  destruct (negb _); [keeps|]. destruct (find _ _); keeps.
Qed.

Lemma keeps_handle_parsed_request : keeps I G handle_parsed_request.
Proof.
  unfold Handler.handle_parsed_request, Handler.do_GET, Handler.do_HEAD,
    copyfile.
  pose proof keeps_send_head. pose proof keeps_send_error.
  keeps. destruct (_ =? "GET")%string; [keeps; destruct a0; keeps|].
  destruct (_ =? "HEAD")%string; keeps.
Qed.

End Keeps.

(** **** Each CORS header exactly once *)

Lemma no_cors_has_keyword (l : hline) :
  no_cors l = true ->
  has_keyword "Access-Control-Allow-Origin" l = false /\
  has_keyword "Access-Control-Allow-Methods" l = false /\
  has_keyword "Access-Control-Allow-Headers" l = false.
Proof.
  destruct l as [v c m|k v|]; cbn [no_cors has_keyword]; auto.
  unfold is_cors_keyword. cbn [existsb]. rewrite negb_true_iff.
  rewrite !orb_false_iff. tauto.
Qed.

Lemma filter_quiet (buf : list hline) :
  forallb no_cors buf = true ->
  filter (has_keyword "Access-Control-Allow-Origin") buf = [] /\
  filter (has_keyword "Access-Control-Allow-Methods") buf = [] /\
  filter (has_keyword "Access-Control-Allow-Headers") buf = [].
Proof.
  induction buf as [|l buf IH]; [auto|].
  cbn [forallb filter]. intros H. apply andb_prop in H as [Hl Hbuf].
  destruct (no_cors_has_keyword l Hl) as (-> & -> & ->). auto.
Qed.

Lemma cors_once_finalized (buf : list hline) :
  forallb no_cors buf = true ->
  cors_once (Head (buf ++ cors_headers ++ [EndOfHeaders])).
Proof.
  intros H. destruct (filter_quiet buf H) as (Ho & Hm & Hh).
  unfold cors_once, sent_once. rewrite !filter_app, Ho, Hm, Hh.
  repeat split; reflexivity.
Qed.

Lemma quiet_silent {A} (m : M A) :
  (forall self,
      wfile (exec m self) = wfile self /\
      (headers_buffer (exec m self) = headers_buffer self \/
       exists l, no_cors l = true /\
                 headers_buffer (exec m self)
                 = (headers_buffer self ++ [l])%list)) ->
  keeps quiet cors_once m.
Proof.
  intros H self Hq. destruct (H self) as [Hw Hb]. split.
  - unfold quiet in *. destruct Hb as [-> | (l & Hl & ->)]; [exact Hq|].
    rewrite forallb_app, Hq. cbn. now rewrite Hl.
  - exists []. now rewrite app_nil_r.
Qed.

Lemma quiet_log_message (msg : string) :
  keeps quiet cors_once (log_message msg).
Proof. apply quiet_silent. intros self. split; [reflexivity | now left]. Qed.

Lemma quiet_send_response_only (code : Z) (message : option string) :
  keeps quiet cors_once (send_response_only code message).
Proof.
  apply quiet_silent. intros self. unfold exec, Handler.send_response_only.
  destruct (negb _); (split; [reflexivity|]); [right | now left].
  eexists. split; [|reflexivity]. reflexivity.
Qed.

Lemma quiet_send_header (k v : string) :
  is_cors_keyword k = false -> keeps quiet cors_once (send_header k v).
Proof.
  intros Hk. apply quiet_silent. intros self. unfold exec, send_header.
  destruct (negb _);
    repeat match goal with |- context [if ?b then _ else _] => destruct b end;
    (split; [reflexivity|]);
    try (now left);
    right; exists (HeaderLine k v); cbn [no_cors]; rewrite Hk; auto.
Qed.

Lemma quiet_wfile_write (data : list Byte.byte) :
  keeps quiet cors_once (wfile_write data).
Proof.
  intros self Hq. split; [exact Hq|]. exists [Body data].
  split; [reflexivity|]. constructor; cbn; auto.
Qed.

Lemma quiet_end_headers : keeps quiet cors_once end_headers.
Proof.
  intros self Hq. unfold exec.
  destruct (request_version self =? "HTTP/0.9")%string eqn:Hv.
  - rewrite end_headers_http09 by exact Hv. split; [exact Hq|].
    exists []. cbn [snd]. now rewrite app_nil_r.
  - rewrite end_headers_http1 by exact Hv. split; [reflexivity|].
    eexists. split; [reflexivity|]. constructor; [|constructor].
    now apply cors_once_finalized.
Qed.

(** X1. Whatever the request, every header section written in answer to it
    has each of the three CORS headers exactly once, with the value
    [end_headers] gives it: no inherited method sends one of them, and the
    buffer is emptied each time a section is finalized. *)
Theorem cors_headers_sent_once (command P version : string)
        (hs : list (string * string)) :
  Forall cors_once
         (wfile (exec handle_parsed_request (request command P version hs))).
Proof.
  destruct (keeps_handle_parsed_request quiet cors_once
              quiet_log_message quiet_send_response_only quiet_send_header
              quiet_end_headers quiet_wfile_write
              (request command P version hs))
    as [_ (new & E & Hnew)]; [reflexivity|].
  rewrite E. exact Hnew.
Qed.

(** **** HTTP/0.9 requests *)

Lemma http09_silent {A} (m : M A) :
  (forall self,
      request_version (exec m self) = request_version self /\
      wfile (exec m self) = wfile self) ->
  keeps http09 is_body m.
Proof.
  intros H self Hv. destruct (H self) as [Hr Hw]. split.
  - unfold http09 in *. congruence.
  - exists []. now rewrite app_nil_r.
Qed.

Lemma http09_log_message (msg : string) :
  keeps http09 is_body (log_message msg).
Proof. apply http09_silent. intros self. split; reflexivity. Qed.

Lemma http09_send_response_only (code : Z) (message : option string) :
  keeps http09 is_body (send_response_only code message).
Proof.
  apply http09_silent. intros self. unfold exec, Handler.send_response_only.
  destruct (negb _); split; reflexivity.
Qed.

Lemma http09_send_header (k v : string) :
  is_cors_keyword k = false -> keeps http09 is_body (send_header k v).
Proof.
  intros _. apply http09_silent. intros self. unfold exec, send_header.
  repeat match goal with |- context [if ?b then _ else _] => destruct b end;
    split; reflexivity.
Qed.

Lemma http09_wfile_write (data : list Byte.byte) :
  keeps http09 is_body (wfile_write data).
Proof.
  intros self Hv. split; [exact Hv|]. exists [Body data].
  split; [reflexivity|]. constructor; cbn; auto.
Qed.

Lemma http09_end_headers : keeps http09 is_body end_headers.
Proof.
  intros self Hv. unfold exec.
  rewrite end_headers_http09 by (now apply String.eqb_eq).
  split; [exact Hv|]. exists []. cbn [snd]. now rewrite app_nil_r.
Qed.

Lemma heads_bodies (out : list chunk) : Forall is_body out -> heads out = [].
Proof.
  induction 1 as [|c out Hc _ IH]; [reflexivity|].
  destruct c; [destruct Hc | exact IH].
Qed.

(** X2. A request with version HTTP/0.9 is answered without any header
    section: neither a status line nor the CORS headers are written, only
    body bytes. *)
Theorem http09_response_has_no_headers (command P : string)
        (hs : list (string * string)) :
  heads (wfile (exec handle_parsed_request (request command P "HTTP/0.9" hs)))
  = [].
Proof.
  destruct (keeps_handle_parsed_request http09 is_body
              http09_log_message http09_send_response_only http09_send_header
              http09_end_headers http09_wfile_write
              (request command P "HTTP/0.9" hs))
    as [_ (new & E & Hnew)]; [reflexivity|].
  rewrite E. now apply heads_bodies.
Qed.

(** **** What [end_headers] leaves alone *)

(** X3. [end_headers] changes nothing of the handler but the header buffer
    and the output: the request fields, the log and, although [send_header]
    can switch it, the keep-alive flag [close_connection] are as before; the
    buffer is empty afterwards (untouched for HTTP/0.9). *)
Theorem end_headers_frame (self : handler) :
  let self' := exec end_headers self in
  command self' = command self /\
  path self' = path self /\
  request_version self' = request_version self /\
  headers self' = headers self /\
  close_connection self' = close_connection self /\
  stderr self' = stderr self /\
  headers_buffer self'
  = if (request_version self =? "HTTP/0.9")%string then headers_buffer self
    else [].
Proof.
  cbv zeta. unfold exec.
  destruct (request_version self =? "HTTP/0.9")%string eqn:Hv.
  - rewrite end_headers_http09 by exact Hv. repeat split.
  - rewrite end_headers_http1 by exact Hv. repeat split.
Qed.

(** **** Methods other than GET and HEAD *)

Lemma handle_other (command P version : string)
      (hs : list (string * string)) :
  command <> "GET" -> command <> "HEAD" ->
  handle_parsed_request (request command P version hs)
  = send_error 501 (Some ("Unsupported method ('" ++ command ++ "')")) None
               (request command P version hs).
Proof.
  intros Hget Hhead. apply String.eqb_neq in Hget, Hhead.
  unfold Handler.handle_parsed_request. rewrite bind_gets.
  change (Handler.command (request command P version hs)) with command.
  now rewrite Hget, Hhead.
Qed.


(** **** Files that are served, and files that are missing *)




End Methods.

End HandlerFacts.




(** ** The script: start-up, shutdown and what is printed *)

Module ScriptFacts.

Import Script.

Lemma append_nil_r (s : string) : s ++ "" = s.
Proof. induction s; simpl; congruence. Qed.

Lemma append_assoc (a b c : string) : (a ++ b) ++ c = a ++ b ++ c.
Proof. induction a; simpl; congruence. Qed.

Lemma lines_from_line (cur s rest : string) :
  no_newline s = true ->
  lines_from cur (s ++ nl ++ rest) = (cur ++ s) :: lines_from "" rest.
Proof.
  revert cur. induction s as [|c s IH]; intros cur H.
  - now rewrite append_nil_r.
  - simpl in H. apply andb_prop in H as [Hc Hs].
    change (lines_from cur (String c s ++ nl ++ rest))
      with (if Ascii.eqb c "010" then cur :: lines_from "" (s ++ nl ++ rest)
            else lines_from (cur ++ String c "") (s ++ nl ++ rest)).
    apply negb_true_iff in Hc. rewrite Hc, (IH _ Hs), append_assoc.
    reflexivity.
Qed.

Lemma stdout_app (t u : list event) : stdout (t ++ u) = stdout t ++ stdout u.
Proof.
  induction t as [|ev t IH]; [reflexivity|].
  destruct ev; simpl; try assumption. now rewrite IH, append_assoc.
Qed.

Lemma chdirs_app (t u : list event) : chdirs (t ++ u) = (chdirs t ++ chdirs u)%list.
Proof. induction t as [|ev t IH]; [|destruct ev]; simpl; congruence. Qed.

Lemma binds_app (t u : list event) : binds (t ++ u) = (binds t ++ binds u)%list.
Proof. induction t as [|ev t IH]; [|destruct ev]; simpl; congruence. Qed.

Lemma lines_unlines (ls : list string) :
  forallb no_newline ls = true -> lines (unlines ls) = ls.
Proof.
  unfold lines. induction ls as [|l ls IH]; [reflexivity|].
  intros H. cbn [forallb] in H. apply andb_prop in H as [Hl Hls].
  cbn [unlines]. rewrite (lines_from_line "" l _ Hl), (IH Hls). reflexivity.
Qed.

Section Runs.

Variable Path_parent : string -> string.
Variable env : environment.

Local Abbreviation dir := (ebook_dir Path_parent env).
Local Abbreviation python := (python Path_parent env).

Lemma run_chdir_fails (msg : string) :
  chdir_error env dir = Some msg ->
  python = Exited 1 (Some (OSError msg)) [Chdir dir].
Proof.
  intros H. unfold Script.python, serve_py, os_chdir, bind, emit.
  cbn [app]. rewrite H. reflexivity.
Qed.

Lemma run_bind_fails (msg : string) :
  chdir_error env dir = None ->
  bind_error env "" PORT = Some msg ->
  python = Exited 1 (Some (OSError msg))
                  (startup dir ++ [Bind "" PORT; ServerClose]).
Proof.
  intros Hc Hb.
  unfold Script.python, serve_py, os_chdir, main, try_except, TCPServer,
    print, bind, emit.
  cbn [app]. rewrite Hc. cbn [app ret]. rewrite Hb. reflexivity.
Qed.

Lemma run_serving :
  chdir_error env dir = None ->
  bind_error env "" PORT = None ->
  python =
  match serve_forever_end env with
  | None => Running (startup dir ++ [Bind "" PORT; ServeForever])
  | Some KeyboardInterrupt =>
      Exited 0 None (startup dir ++ [Bind "" PORT; ServeForever; ServerClose;
                                     Write shutdown_text])
  | Some (SystemExit code) =>
      Exited code None (startup dir ++ [Bind "" PORT; ServeForever; ServerClose])
  | Some (OSError msg) =>
      Exited 1 (Some (OSError msg))
             (startup dir ++ [Bind "" PORT; ServeForever; ServerClose])
  end.
Proof.
  intros Hc Hb.
  unfold Script.python, serve_py, os_chdir, main, try_except, try_finally,
    TCPServer, serve_forever, server_close, sys_exit, raise, print, bind, emit.
  cbn [app]. rewrite Hc. cbn [app ret]. rewrite Hb. cbn [app ret].
  destruct (serve_forever_end env) as [[msg| |code]|]; reflexivity.
Qed.

(** The three ways a run can go, by what the operating system answers. *)
Lemma run_cases :
  (exists msg, chdir_error env dir = Some msg /\
               python = Exited 1 (Some (OSError msg)) [Chdir dir]) \/
  (exists msg, chdir_error env dir = None /\
               bind_error env "" PORT = Some msg /\
               python = Exited 1 (Some (OSError msg))
                               (startup dir ++ [Bind "" PORT; ServerClose])) \/
  (exists t, chdir_error env dir = None /\ bind_error env "" PORT = None /\
             trace_of python = (startup dir ++ Bind "" PORT :: ServeForever :: t)%list /\
             chdirs t = [] /\ binds t = [] /\
             failed_to_start python = false).
Proof.
  destruct (chdir_error env dir) as [msg|] eqn:Hc.
  { left. exists msg. split; [reflexivity|]. now apply run_chdir_fails. }
  destruct (bind_error env "" PORT) as [msg|] eqn:Hb.
  { right; left. exists msg. repeat split. now apply run_bind_fails. }
  right; right. rewrite (run_serving Hc Hb).
  destruct (serve_forever_end env) as [[msg| |code]|].
  - exists [ServerClose]. repeat split.
  - exists [ServerClose; Write shutdown_text]. repeat split.
  - exists [ServerClose]. repeat split.
    cbn [failed_to_start]. apply andb_false_iff. right. reflexivity.
  - exists []. repeat split.
Qed.

(** C6, as amended. When [os.chdir] to the content root raises (the
    directory is missing or cannot be entered), the process ends with
    status 1 and the error as its traceback, before anything is printed;
    the other start-up failure is the server failing to bind port 8000, which
    ends the process the same way after the start-up lines.  A run fails to
    start exactly in these two cases. *)
Theorem startup_failures :
  (forall msg,
      chdir_error env dir = Some msg ->
      python = Exited 1 (Some (OSError msg)) [Chdir dir]) /\
  (forall msg,
      chdir_error env dir = None ->
      bind_error env "" PORT = Some msg ->
      python = Exited 1 (Some (OSError msg))
                      (startup dir ++ [Bind "" PORT; ServerClose])) /\
  (failed_to_start python = true <->
   chdir_error env dir <> None \/ bind_error env "" PORT <> None).
Proof.
  split; [exact run_chdir_fails | split; [exact run_bind_fails|]].
  destruct run_cases as [(msg & Hc & E) | [(msg & Hc & Hb & E) | (t & Hc & Hb & _ & _ & _ & F)]].
  - rewrite E, Hc. split; [left; discriminate | reflexivity].
  - rewrite E, Hb. split; [right; discriminate | reflexivity].
  - rewrite F, Hc, Hb. split; [discriminate | intros [H|H]; now elim H].
Qed.

(** C7. When [serve_forever] is interrupted ([KeyboardInterrupt]) while the
    server is running, the process prints the shutdown message and exits
    with status 0. *)
Theorem interrupt_exits_zero :
  chdir_error env dir = None ->
  bind_error env "" PORT = None ->
  serve_forever_end env = Some KeyboardInterrupt ->
  python = Exited 0 None
             (startup dir ++ [Bind "" PORT; ServeForever; ServerClose;
                              Write (nl ++ "Server stopped." ++ nl)]).
Proof.
  intros Hc Hb Hs. rewrite (run_serving Hc Hb), Hs. reflexivity.
Qed.

(** C8. The server binds host [""] (all interfaces) on port 8000 and nothing
    else; the content root is set once, by the first thing the process does,
    to the directory that contains the program; and neither depends on the
    command-line arguments or the environment variables. *)
Theorem fixed_port_and_content_root :
  (exists t, trace_of python = Chdir (Path_parent (file__ env)) :: t /\
             chdirs t = []) /\
  (forall host port,
      In (host, port) (binds (trace_of python)) -> host = "" /\ port = 8000) /\
  (chdir_error env dir = None -> binds (trace_of python) = [("", 8000)]) /\
  (forall args vars,
      Script.python Path_parent (with_args env args vars) = python).
Proof.
  assert (Hbinds : binds (trace_of python) = [] \/
                   binds (trace_of python) = [("", 8000)]).
  { destruct run_cases as [(msg & Hc & E) | [(msg & Hc & Hb & E) | (t & Hc & Hb & E & _ & Hbt & _)]].
    - left. now rewrite E.
    - right. now rewrite E.
    - right. rewrite E, binds_app. cbn [binds startup startup_lines map app].
      now rewrite Hbt. }
  split; [|split; [|split]].
  - destruct run_cases as [(msg & Hc & E) | [(msg & Hc & Hb & E) | (t & Hc & Hb & E & Hct & _ & _)]].
    + rewrite E. now exists [].
    + rewrite E. eexists. split; [reflexivity|]. reflexivity.
    + rewrite E. eexists. split; [reflexivity|].
      rewrite chdirs_app. cbn [chdirs startup_lines map app]. exact Hct.
  - intros host port Hin.
    destruct Hbinds as [E|E]; rewrite E in Hin; [destruct Hin|].
    destruct Hin as [[= <- <-]|[]]. auto.
  - intros Hc.
    destruct run_cases as [(msg & Hc' & E) | [(msg & _ & Hb & E) | (t & _ & Hb & E & _ & Hbt & _)]].
    + congruence.
    + now rewrite E.
    + rewrite E, binds_app. cbn [binds startup startup_lines map app].
      now rewrite Hbt.
  - reflexivity.
Qed.

(** C9, as amended. On a normal run (started, then interrupted) standard
    output is exactly six lines: four start-up lines (the port, the content
    root, the URL and the Ctrl+C hint), then an empty line and the shutdown
    line, both written by the one [print] of the interrupt handler. *)
Theorem stdout_of_a_normal_run :
  chdir_error env dir = None ->
  bind_error env "" PORT = None ->
  serve_forever_end env = Some KeyboardInterrupt ->
  stdout (trace_of python)
  = unlines (startup_lines dir ++ [""; "Server stopped."]) /\
  (no_newline dir = true ->
   lines (stdout (trace_of python))
   = (startup_lines dir ++ [""; "Server stopped."])%list).
Proof.
  intros Hc Hb Hs.
  assert (E : stdout (trace_of python)
              = unlines (startup_lines dir ++ [""; "Server stopped."])).
  { rewrite (run_serving Hc Hb), Hs.
    cbn [trace_of startup startup_lines map app stdout unlines].
    rewrite !append_assoc. reflexivity. }
  split; [exact E|].
  intros Hdir. rewrite E. apply lines_unlines.
  cbn [startup_lines app forallb]. cbn. rewrite Hdir. reflexivity.
Qed.

(** *** Further properties of a run *)


(** X10. Once the server socket is bound, a process that exits has closed
    it first, whatever ended [serve_forever], and writes nothing in
    between: on an interrupt the socket is closed before the shutdown text
    is written.  While the server runs the socket stays open. *)
Theorem socket_is_closed_before_exit :
  (forall status tb t,
      python = Exited status tb t ->
      binds t <> [] ->
      exists t1 t2 t3,
        t = (t1 ++ Bind "" PORT :: t2 ++ ServerClose :: t3)%list /\
        stdout t2 = "" /\ binds t3 = []) /\
  (forall t, python = Running t -> ~ In ServerClose t).
Proof.
  assert (Hnot : ~ In ServerClose (startup dir)).
  { cbn [startup startup_lines map In].
    intros [H|[H|[H|[H|[H|[]]]]]]; discriminate H. }
  destruct (chdir_error env dir) as [cmsg|] eqn:Hc.
  { rewrite (run_chdir_fails cmsg Hc). split.
    - intros status tb t [= _ _ <-] H. now elim H.
    - discriminate. }
  destruct (bind_error env "" PORT) as [bmsg|] eqn:Hb.
  { rewrite (run_bind_fails bmsg Hc Hb). split.
    - intros status tb t [= _ _ <-] _.
      now exists (startup dir), [], [].
    - discriminate. }
  rewrite (run_serving Hc Hb).
  destruct (serve_forever_end env) as [[msg| |code]|]; split;
    try discriminate.
  - intros status tb t [= _ _ <-] _.
    now exists (startup dir), [ServeForever], [].
  - intros status tb t [= _ _ <-] _.
    now exists (startup dir), [ServeForever], [Write shutdown_text].
  - intros status tb t [= _ <-] _.
    now exists (startup dir), [ServeForever], [].
  - intros t E Hin.
    assert (Et : t = (startup dir ++ [Bind "" PORT; ServeForever])%list)
      by congruence.
    rewrite Et in Hin. apply in_app_or in Hin as [H|[H|[H|[]]]];
      [now elim Hnot | discriminate H | discriminate H].
Qed.



End Runs.

End ScriptFacts.

Lemma startup_failures_witness :
  Script.python Demo.parent Demo.root_missing
  = Script.Exited 1
      (Some (Script.OSError "[Errno 2] No such file or directory"))
      [Script.Chdir "/srv/book"] /\
  Script.python Demo.parent Demo.port_in_use
  = Script.Exited 1
      (Some (Script.OSError "[Errno 98] Address already in use"))
      (Script.startup "/srv/book"
       ++ [Script.Bind "" 8000; Script.ServerClose]) /\
  Script.failed_to_start (Script.python Demo.parent Demo.port_in_use) = true.
Proof.
  split; [|split].
  - apply (proj1 (ScriptFacts.startup_failures Demo.parent Demo.root_missing)).
    reflexivity.
  - apply (proj1 (proj2 (ScriptFacts.startup_failures
                           Demo.parent Demo.port_in_use))); reflexivity.
  - apply (proj2 (proj2 (ScriptFacts.startup_failures
                           Demo.parent Demo.port_in_use))).
    right. discriminate.
Defined.

(** The start-up failure that is not about the content root: the port is
    taken. *)
Lemma port_in_use_fails_startup :
  ~ (Script.failed_to_start (Script.python Demo.parent Demo.port_in_use) = true ->
     Script.chdir_error Demo.port_in_use
       (Script.ebook_dir Demo.parent Demo.port_in_use) <> None).
Proof. intros H. now apply H. Qed.

Lemma interrupt_exits_zero_witness :
  Script.python Demo.parent Demo.interrupted
  = Script.Exited 0 None
      (Script.startup "/srv/book"
       ++ [Script.Bind "" 8000; Script.ServeForever; Script.ServerClose;
           Script.Write (Script.nl ++ "Server stopped." ++ Script.nl)]).
Proof.
  apply (ScriptFacts.interrupt_exits_zero Demo.parent Demo.interrupted);
    reflexivity.
Defined.

Lemma fixed_port_and_content_root_witness :
  Script.binds (Script.trace_of (Script.python Demo.parent Demo.interrupted))
  = [("", 8000)] /\
  Script.python Demo.parent
    (Script.with_args Demo.interrupted ["--port"; "9000"] [("PORT", "9000")])
  = Script.python Demo.parent Demo.interrupted.
Proof.
  destruct (ScriptFacts.fixed_port_and_content_root Demo.parent Demo.interrupted)
    as (_ & _ & Hbind & Hargs).
  split; [apply Hbind; reflexivity | apply Hargs].
Defined.

(** Four start-up lines, not three: six lines in all. *)
Lemma normal_run_prints_four_startup_lines :
  ~ Script.three_startup_lines_one_shutdown_line
      (Script.stdout
         (Script.trace_of (Script.python Demo.parent Demo.interrupted))).
Proof. intros (a & b & c & d & H). vm_compute in H. discriminate H. Qed.

Lemma stdout_of_a_normal_run_witness :
  Script.lines
    (Script.stdout
       (Script.trace_of (Script.python Demo.parent Demo.interrupted)))
  = ["Starting FASM eBook server on port 8000";
     "Serving from: /srv/book";
     "Open your browser to: http://localhost:8000";
     "Press Ctrl+C to stop the server";
     "";
     "Server stopped."].
Proof.
  apply (ScriptFacts.stdout_of_a_normal_run Demo.parent Demo.interrupted);
    reflexivity.
Defined.

(** ** Examples of the further properties *)





Lemma guess_type_is_a_suffix_test_witness :
  Handler.guess_type Demo.super_guess_type "md" = "application/octet-stream" /\
  Handler.guess_type Demo.super_guess_type "notes.md~"
  = "application/octet-stream".
Proof.
  destruct (GuessType.guess_type_is_a_suffix_test Demo.super_guess_type)
    as [Hshort Hlast].
  split.
  - apply (Hshort "md"). cbn. lia.
  - apply (Hlast "notes.md" "~"%char); discriminate.
Defined.


Lemma socket_is_closed_before_exit_witness :
  (exists t1 t2 t3,
      Script.trace_of (Script.python Demo.parent Demo.select_fails)
      = (t1 ++ Script.Bind "" 8000 :: t2 ++ Script.ServerClose :: t3)%list /\
      Script.stdout t2 = "" /\ Script.binds t3 = []) /\
  ~ In Script.ServerClose
       (Script.trace_of (Script.python Demo.parent Demo.running)).
Proof.
  split.
  - apply (proj1 (ScriptFacts.socket_is_closed_before_exit
                    Demo.parent Demo.select_fails)
                 1 (Some (Script.OSError "[Errno 9] Bad file descriptor")));
      [reflexivity | discriminate].
  - apply (proj2 (ScriptFacts.socket_is_closed_before_exit
                    Demo.parent Demo.running)).
    reflexivity.
Defined.

